(* Verification model of the Angular frontend of the AI platform:
   notification queue, HTTP error interceptor, ApiService, ImageService
   and the form / history components. *)

From Stdlib Require Import String Ascii List ZArith QArith Lqa Bool Lia.
Import ListNotations.
Close Scope Q_scope.
Open Scope string_scope.

(* ------------------------------------------------------------------ *)
(** * JavaScript helpers *)

(** JavaScript string truthiness: a string is truthy iff it is non-empty. *)
Definition truthy (s : string) : bool :=
  match s with EmptyString => false | _ => true end.

(** [a || b] on strings. *)
Definition js_or (a b : string) : string := if truthy a then a else b.

(** [s.startsWith(p)]. *)
Definition startsWith (s p : string) : bool := String.prefix p s.

(** Decimal rendering of a non-negative status code, as in [`${status}`]. *)
Definition digit (n : Z) : ascii := ascii_of_nat (48 + Z.to_nat n).

Fixpoint digits_aux (fuel : nat) (n : Z) (acc : string) : string :=
  match fuel with
  | O => acc
  | S f =>
      let acc' := String (digit (n mod 10)) acc in
      if (n <? 10)%Z then acc' else digits_aux f (n / 10)%Z acc'
  end.

Definition Z_to_string (n : Z) : string := digits_aux 20 n EmptyString.

(* ------------------------------------------------------------------ *)
(** * NotificationService (core/services/notification.service.ts) *)

Module Notif.

Inductive kind := success | error | warning | info.

Record Notification := mkNotification {
  id : string;
  type : kind;
  message : string;
  duration : Z
}.

(** The value of [notifications$]: the process-wide ordered list. *)
Definition queue := list Notification.

(** [show(type, message, duration)]; the id produced by [generateId()]
    (from [Date.now()] and [Math.random()]) is passed in as [nid].
    The [setTimeout] that later calls [remove] is not part of this step. *)
Definition show (q : queue) (nid : string) (t : kind) (msg : string)
    (dur : Z) : queue :=
  app q [mkNotification nid t msg dur].

(** [error(message)] = [show('error', message, 7000)]. *)
Definition show_error (q : queue) (nid : string) (msg : string) : queue :=
  show q nid error msg 7000.

(** [remove(id)]: [current.filter(n => n.id !== id)]. *)
Definition remove (q : queue) (rid : string) : queue :=
  filter (fun n => negb (String.eqb (id n) rid)) q.

End Notif.

(* ------------------------------------------------------------------ *)
(** * HTTP errors *)

(** The [error] payload of an [HttpErrorResponse]. *)
Inductive ErrorBody :=
  | BodyErrorEvent (msg : string)        (* error.error instanceof ErrorEvent *)
  | BodyJson (detail : option string)    (* a parsed JSON body, maybe with detail *)
  | BodyOther.                           (* text, ProgressEvent, null: no detail *)

Record HttpErrorResponse := mkHttpErrorResponse {
  status : Z;
  err_body : ErrorBody;
  err_message : string   (* Angular's "Http failure response for ..." *)
}.

(** [error.error?.detail], as a string ("" when undefined). *)
Definition detail_of (b : ErrorBody) : string :=
  match b with
  | BodyJson (Some d) => d
  | _ => EmptyString
  end.

(* ------------------------------------------------------------------ *)
(** * HttpErrorInterceptor (core/interceptors/loading.interceptor.ts) *)

Module Interceptor.

(** [getServerErrorMessage(error)]. *)
Definition getServerErrorMessage (e : HttpErrorResponse) : string :=
  let d := detail_of (err_body e) in
  match status e with
  | 0%Z => "Cannot connect to server. Please check your internet connection."
  | 400%Z => js_or d "Invalid request. Please check your input."
  | 401%Z => "Unauthorized. Please log in."
  | 403%Z => "Access forbidden."
  | 404%Z => "Resource not found."
  | 408%Z => "Request timeout. Please try again."
  | 500%Z => js_or d "Server error. Please try again later."
  | 503%Z => "Service temporarily unavailable."
  | s => js_or d ("Server error: " ++ Z_to_string s)
  end.

(** The message computed in the [catchError] callback. *)
Definition errorMessage (e : HttpErrorResponse) : string :=
  match err_body e with
  | BodyErrorEvent m => "Client Error: " ++ m
  | _ => getServerErrorMessage e
  end.

(** The [catchError] callback: notify, log (no state), rethrow
    [new Error(errorMessage)]. Returns the new queue and the message of
    the rethrown [Error]. *)
Definition on_final_failure (q : Notif.queue) (nid : string)
    (e : HttpErrorResponse) : Notif.queue * string :=
  let msg := errorMessage e in
  (Notif.show_error q nid msg, msg).

End Interceptor.

(* ------------------------------------------------------------------ *)
(** * ImageService.getImageUrl (core/services/image.service.ts) *)

Definition getImageUrl (imageSource : string) : string :=
  if truthy imageSource &&
     (startsWith imageSource "http://" || startsWith imageSource "https://")
  then imageSource
  else "http://localhost:8000/images/" ++ imageSource.

(* ------------------------------------------------------------------ *)
(** * ImageGenerationComponent: the in-memory history *)

Module ImageGen.

Local Open Scope nat_scope.
Local Open Scope list_scope.

(** The part of [metadata] the component reads. *)
Record Metadata := mkMetadata {
  original_prompt : string;
  md_style : string
}.

(** The fields of [ImageGenerationResponse] the component touches. *)
Record ImageGenerationResponse := mkResponse {
  image_url : string;
  enhanced_prompt : string;
  message : string;
  prompt : option string;
  style : option string;
  metadata : option Metadata
}.

(** [this.history.unshift(response); if (this.history.length > 12) this.history.pop();] *)
Definition push_history (history : list ImageGenerationResponse)
    (response : ImageGenerationResponse) : list ImageGenerationResponse :=
  let h := response :: history in
  if 12 <? length h then removelast h else h.

Record State := mkState {
  st_prompt : string;
  st_selectedStyle : string;
  st_loading : bool;
  st_error : string;
  st_generatedImage : option ImageGenerationResponse;
  st_history : list ImageGenerationResponse
}.

Definition initial : State := mkState "" "realistic" false "" None [].

(** The [next] callback of [generateImage()]: the response object is
    mutated (prompt, style) before it is stored, so the stored entry and
    [generatedImage] are the same, updated object. *)
Definition on_next (st : State) (response : ImageGenerationResponse) : State :=
  let r := mkResponse (image_url response) (enhanced_prompt response)
             (message response) (Some (st_prompt st))
             (Some (st_selectedStyle st)) (metadata response) in
  mkState (st_prompt st) (st_selectedStyle st) false (st_error st)
          (Some r) (push_history (st_history st) r).

(** [!s.trim()]: only ASCII white space is modelled. *)
Definition is_ws (c : ascii) : bool :=
  match nat_of_ascii c with 9 | 10 | 11 | 12 | 13 | 32 => true | _ => false end.

Fixpoint blank (s : string) : bool :=
  match s with
  | EmptyString => true
  | String c s' => is_ws c && blank s'
  end.

Definition opt_str (o : option string) : string :=
  match o with Some s => s | None => "" end.

(** What can happen to the component: template bindings, the validation
    part of [generateImage()], the [next] and [error] callbacks, and
    [loadFromHistory]. *)
Inductive Event :=
  | SetPrompt (p : string)
  | SetStyle (s : string)
  | Submit
  | Next (response : ImageGenerationResponse)
  | Fail (message : string)
  | LoadFromHistory (item : ImageGenerationResponse).

Definition step (st : State) (ev : Event) : State :=
  match ev with
  | SetPrompt p => mkState p (st_selectedStyle st) (st_loading st) (st_error st)
                     (st_generatedImage st) (st_history st)
  | SetStyle s => mkState (st_prompt st) s (st_loading st) (st_error st)
                    (st_generatedImage st) (st_history st)
  | Submit =>
      if blank (st_prompt st)
      then mkState (st_prompt st) (st_selectedStyle st) (st_loading st)
             "Please enter a prompt" (st_generatedImage st) (st_history st)
      else mkState (st_prompt st) (st_selectedStyle st) true ""
             (st_generatedImage st) (st_history st)
  | Next r => on_next st r
  | Fail m => mkState (st_prompt st) (st_selectedStyle st) false
                (js_or m "Generation failed. Please try again.")
                (st_generatedImage st) (st_history st)
  | LoadFromHistory item =>
      let md_p := match metadata item with Some md => original_prompt md | None => "" end in
      let md_s := match metadata item with Some md => md_style md | None => "" end in
      mkState (js_or (opt_str (prompt item)) (js_or md_p ""))
              (js_or (opt_str (style item)) (js_or md_s "realistic"))
              (st_loading st) (st_error st) (Some item) (st_history st)
  end.

Definition run (evs : list Event) : State := fold_left step evs initial.

End ImageGen.

(* ------------------------------------------------------------------ *)
(** * Resume form components *)

Module Resume.

Local Open Scope nat_scope.
Local Open Scope list_scope.

Record Experience := mkExperience {
  title : string;
  company : string;
  duration : string;
  responsibilities : list string
}.

Record Education := mkEducation {
  degree : string;
  institution : string;
  year : string;
  gpa : string
}.

Record ResumeRequest := mkResumeRequest {
  name : string;
  email : string;
  phone : string;
  target_role : string;
  skills : list string;
  experience : list Experience;
  education : list Education;
  job_description : string
}.

(** [Array.prototype.splice(index, 1)] on an integer index: a negative
    index counts from the end, an index at or past the end removes nothing. *)
Definition splice1 {A} (l : list A) (index : Z) : list A :=
  let len := Z.of_nat (length l) in
  let start := if (index <? 0)%Z then Z.max (len + index) 0 else Z.min index len in
  firstn (Z.to_nat start) l ++ skipn (S (Z.to_nat start)) l.

(** [a[i]] for an integer index: [undefined] outside [0, length). *)
Definition get {A} (l : list A) (i : Z) : option A :=
  if (i <? 0)%Z then None else nth_error l (Z.to_nat i).

(** In-place update of the element at [i] (only called after [get] succeeded). *)
Definition set {A} (l : list A) (i : Z) (x : A) : list A :=
  firstn (Z.to_nat i) l ++ x :: skipn (S (Z.to_nat i)) l.

Definition with_experience (r : ResumeRequest) (ex : list Experience) :=
  mkResumeRequest (name r) (email r) (phone r) (target_role r) (skills r)
    ex (education r) (job_description r).

Definition with_education (r : ResumeRequest) (ed : list Education) :=
  mkResumeRequest (name r) (email r) (phone r) (target_role r) (skills r)
    (experience r) ed (job_description r).

Definition with_responsibilities (e : Experience) (rs : list string) :=
  mkExperience (title e) (company e) (duration e) rs.

Definition new_experience : Experience := mkExperience "" "" "" [""].
Definition new_education : Education := mkEducation "" "" "" "".

(** The list-editing methods shared by both components. *)
Inductive op :=
  | AddExperience
  | RemoveExperience (index : Z)
  | AddResponsibility (expIndex : Z)
  | RemoveResponsibility (expIndex respIndex : Z)
  | AddEducation
  | RemoveEducation (index : Z).

(** ResumeGeneratorComponent's methods ([None]: the method throws a
    TypeError on [experience[expIndex]] being undefined, with no mutation). *)
Definition generator_step (o : op) (r : ResumeRequest) : option ResumeRequest :=
  match o with
  | AddExperience => Some (with_experience r (experience r ++ [new_experience]))
  | RemoveExperience i =>
      if 1 <? length (experience r)
      then Some (with_experience r (splice1 (experience r) i)) else Some r
  | AddResponsibility ei =>
      match get (experience r) ei with
      | None => None
      | Some e => Some (with_experience r (set (experience r) ei
                   (with_responsibilities e (responsibilities e ++ [""]))))
      end
  | RemoveResponsibility ei ri =>
      match get (experience r) ei with
      | None => None
      | Some e =>
          if 1 <? length (responsibilities e)
          then Some (with_experience r (set (experience r) ei
                 (with_responsibilities e (splice1 (responsibilities e) ri))))
          else Some r
      end
  | AddEducation => Some (with_education r (education r ++ [new_education]))
  | RemoveEducation i =>
      if 1 <? length (education r)
      then Some (with_education r (splice1 (education r) i)) else Some r
  end.

(** ResumeFormComponent's methods: the same mutations of the parent's
    [resumeData] (an @Input, shared by reference), plus whether
    [emitChange()] fired. *)
Definition form_step (o : op) (r : ResumeRequest) : option (ResumeRequest * bool) :=
  match o with
  | AddExperience => Some (with_experience r (experience r ++ [new_experience]), true)
  | RemoveExperience i =>
      if 1 <? length (experience r)
      then Some (with_experience r (splice1 (experience r) i), true) else Some (r, false)
  | AddResponsibility ei =>
      match get (experience r) ei with
      | None => None
      | Some e => Some (with_experience r (set (experience r) ei
                   (with_responsibilities e (responsibilities e ++ [""]))), true)
      end
  | RemoveResponsibility ei ri =>
      match get (experience r) ei with
      | None => None
      | Some responsibilities_e =>
          let rs := responsibilities responsibilities_e in
          if 1 <? length rs
          then Some (with_experience r (set (experience r) ei
                 (with_responsibilities responsibilities_e (splice1 rs ri))), true)
          else Some (r, false)
      end
  | AddEducation => Some (with_education r (education r ++ [new_education]), true)
  | RemoveEducation i =>
      if 1 <? length (education r)
      then Some (with_education r (splice1 (education r) i), true) else Some (r, false)
  end.

(** ResumeGeneratorComponent's initial [resumeData]. *)
Definition initial : ResumeRequest :=
  mkResumeRequest "" "" "" "" [] [new_experience] [mkEducation "" "" "" ""] "".

(** The lists the components keep non-empty. *)
Definition lists_nonempty (r : ResumeRequest) : Prop :=
  experience r <> [] /\ education r <> [] /\
  Forall (fun e => responsibilities e <> []) (experience r).

(** Running a sequence of method calls; a throwing call leaves the data as is. *)
Fixpoint run_generator (ops : list op) (r : ResumeRequest) : ResumeRequest :=
  match ops with
  | [] => r
  | o :: os => run_generator os (match generator_step o r with Some r' => r' | None => r end)
  end.

Fixpoint run_form (ops : list op) (r : ResumeRequest) : ResumeRequest :=
  match ops with
  | [] => r
  | o :: os => run_form os (match form_step o r with Some (r', _) => r' | None => r end)
  end.

End Resume.

(* ------------------------------------------------------------------ *)
(** * AtsAnalyzerComponent.analyzeResume *)

Module Ats.

Record ATSRequest := mkATSRequest {
  resume_text : string;
  job_description : string
}.

Record State := mkState {
  resumeText : string;
  jobDescription : string;
  loading : bool;
  error : string
}.

(** [analyzeResume()] up to the subscription: the new component state and
    the request handed to [atsService.analyzeResume] ([None]: no call). *)
Definition analyzeResume (st : State) : State * option ATSRequest :=
  if negb (truthy (resumeText st)) || negb (truthy (jobDescription st)) then
    (mkState (resumeText st) (jobDescription st) (loading st)
       "Please fill both fields", None)
  else
    (mkState (resumeText st) (jobDescription st) true "",
     Some (mkATSRequest (resumeText st) (jobDescription st))).

End Ats.

(* ------------------------------------------------------------------ *)
(** * ApiService (core/services/api.service.ts) *)

Module Api.

Definition defaultTimeout : Z := 120000.

(** A call of the wrapper: [get(endpoint, timeoutMs?)],
    [post(endpoint, data, timeoutMs?)], [put(endpoint, data)],
    [delete(endpoint)]. A missing [timeoutMs] is [None]. *)
Inductive Call :=
  | Get (endpoint : string) (timeoutMs : option Z)
  | Post (endpoint : string) (data : string) (timeoutMs : option Z)
  | Put (endpoint : string) (data : string)
  | Delete (endpoint : string).

(** [timeoutMs || this.defaultTimeout]: [undefined] and [0] are falsy. *)
Definition or_default (timeoutMs : option Z) : Z :=
  match timeoutMs with
  | Some t => if (t =? 0)%Z then defaultTimeout else t
  | None => defaultTimeout
  end.

(** The value passed to the [timeout] operator of each method. *)
Definition timeout_of (c : Call) : Z :=
  match c with
  | Get _ t => or_default t
  | Post _ _ t => or_default t
  | Put _ _ => defaultTimeout
  | Delete _ => defaultTimeout
  end.

Definition endpoint_of (c : Call) : string :=
  match c with
  | Get e _ | Post e _ _ | Put e _ | Delete e => e
  end.

(** The errors reaching [catchError(this.handleError)]. *)
Inductive JsError :=
  | JsHttp (e : HttpErrorResponse)    (* an HttpErrorResponse *)
  | JsPlain (message : string)        (* a plain [new Error(message)] *)
  | JsTimeout.                        (* rxjs [TimeoutError] *)

(** rxjs: [TimeoutError]'s message. *)
Definition timeoutErrorMessage : string := "Timeout has occurred".

(** [handleError(error)]: the message of the rethrown [Error]. *)
Definition handleError (e : JsError) : string :=
  match e with
  | JsHttp r =>
      match err_body r with
      | BodyErrorEvent m => "Error: " ++ m
      | b => js_or (js_or (detail_of b) (err_message r)) "Server error"
      end
  | JsPlain m => js_or m "Server error"   (* error.error is undefined *)
  | JsTimeout => js_or timeoutErrorMessage "Server error"
  end.

End Api.

(** The feature services' calls. *)
Definition ImageService_generateImage (request : string) : Api.Call :=
  Api.Post "/image/generate" request (Some 300000%Z).
Definition AtsService_analyzeResume (request : string) : Api.Call :=
  Api.Post "/ats/analyze" request None.
Definition ResumeService_generateResume (request : string) : Api.Call :=
  Api.Post "/resume/generate" request None.

(* ------------------------------------------------------------------ *)
(** * The request pipeline in time

    A call [api.post(...)] subscribes to [http.post(...)], whose
    observable runs the interceptor chain over the backend; ApiService
    pipes [timeout(t)] and [catchError(handleError)] over it. Every
    subscription to the backend is one attempt. Angular's HttpXhrBackend
    (and HttpFetchBackend) emit an [HttpSentEvent] right after sending,
    then a response or an error; interceptors see every event, while
    HttpClient lets only the [HttpResponse] body through to ApiService. *)

Module Pipeline.

Inductive Completion :=
  | Succeeded (body : string)
  | Failed (e : HttpErrorResponse).

(** One subscription to the backend: the events emitted before it
    completes (1 for the [HttpSentEvent]), its duration in ms, its end. *)
Record Attempt := mkAttempt {
  a_values : nat;
  a_duration : Z;
  a_end : Completion
}.

(** The backend's behaviour at its k-th subscription. *)
Definition Backend := nat -> Attempt.

(** [retry({count, delay, resetOnSuccess})] of rxjs 7. *)
Record RetryConfig := mkRetryConfig {
  count : nat;
  delay : Z;
  resetOnSuccess : bool
}.

(** The interceptor's [retry({ count: 1, delay: 1000, resetOnSuccess: true })]. *)
Definition interceptorRetry : RetryConfig := mkRetryConfig 1 1000 true.

(** A run of the retrying observable: the start times of the backend
    subscriptions and either its end (time, completion) or, out of fuel,
    the time of the next subscription. *)
Inductive Run :=
  | Done (t_end : Z) (starts : list Z) (c : Completion)
  | Pending (t_next : Z) (starts : list Z).

Definition prepend (t : Z) (r : Run) : Run :=
  match r with
  | Done te s c => Done te (t :: s) c
  | Pending tn s => Pending tn (t :: s)
  end.

(** rxjs [retry]: a value resets [soFar] when [resetOnSuccess]; on an
    error, [if (soFar++ < count)] resubscribe after [timer(delay)], else
    forward the error. [k] is the subscription number, [t] its time. *)
Fixpoint retry_run (fuel : nat) (cfg : RetryConfig) (src : Backend)
    (k soFar : nat) (t : Z) : Run :=
  match fuel with
  | O => Pending t []
  | S f =>
      let a := src k in
      let soFar1 := if resetOnSuccess cfg && (0 <? a_values a)%nat
                    then 0%nat else soFar in
      let te := (t + a_duration a)%Z in
      match a_end a with
      | Succeeded b => Done te [t] (Succeeded b)
      | Failed e =>
          if (soFar1 <? count cfg)%nat
          then prepend t (retry_run f cfg src (S k) (S soFar1) (te + delay cfg)%Z)
          else Done te [t] (Failed e)
      end
  end.

(** The outcome seen by the caller of an ApiService method. *)
Inductive Result :=
  | Ok (body : string)
  | Err (message : string)     (* the message of the Error thrown by handleError *)
  | Undetermined.              (* not enough fuel to reach the end *)

Record Outcome := mkOutcome {
  result : Result;
  subscriptions : list Z;      (* start times of the backend attempts *)
  notifications : Notif.queue  (* the NotificationService queue afterwards *)
}.

Definition before (deadline : Z) (starts : list Z) : list Z :=
  filter (fun s => (s <? deadline)%Z) starts.

(** An ApiService call issued at time 0 with notification queue [q];
    [nid] is the id the interceptor's notification would get. The
    [timeout] fires at [deadline] unless a value or an error arrived
    before; it then unsubscribes the interceptor chain. *)
Definition api_call (fuel : nat) (q : Notif.queue) (nid : string)
    (src : Backend) (c : Api.Call) : Outcome :=
  let deadline := Api.timeout_of c in
  let timed_out s :=
    mkOutcome (Err (Api.handleError Api.JsTimeout)) (before deadline s) q in
  match retry_run fuel interceptorRetry src 0 0 0 with
  | Done te s (Succeeded b) =>
      if (te <? deadline)%Z then mkOutcome (Ok b) s q else timed_out s
  | Done te s (Failed e) =>
      if (te <? deadline)%Z then
        let '(q', msg) := Interceptor.on_final_failure q nid e in
        mkOutcome (Err (Api.handleError (Api.JsPlain msg))) s q'
      else timed_out s
  | Pending tn s =>
      if (tn <? deadline)%Z then mkOutcome Undetermined s q else timed_out s
  end.

Definition run_starts (r : Run) : list Z :=
  match r with Done _ s _ | Pending _ s => s end.

Definition run_time (r : Run) : Z :=
  match r with Done te _ _ => te | Pending tn _ => tn end.

End Pipeline.

(* ------------------------------------------------------------------ *)
(** * Skills parsing: [skillsInput.split(',').map(s => s.trim()).filter(...)] *)

Module Skills.

(** [s.split(sep)] for a one-character separator: [""] gives [[""]]. *)
Fixpoint split_on (sep : ascii) (s : string) : list string :=
  match s with
  | EmptyString => [EmptyString]
  | String c s' =>
      let rest := split_on sep s' in
      if Ascii.eqb c sep then EmptyString :: rest
      else match rest with
           | h :: t => String c h :: t
           | [] => [String c EmptyString]
           end
  end.

(** [s.trim()] on ASCII strings: drop leading and trailing white space
    (tab, LF, VT, FF, CR and space). *)
Fixpoint trim_left (s : string) : string :=
  match s with
  | String c s' => if ImageGen.is_ws c then trim_left s' else s
  | EmptyString => EmptyString
  end.

Fixpoint trim_right (s : string) : string :=
  match s with
  | EmptyString => EmptyString
  | String c s' =>
      let r := trim_right s' in
      if ImageGen.is_ws c && negb (truthy r) then EmptyString else String c r
  end.

Definition trim (s : string) : string := trim_right (trim_left s).

(** ResumeFormComponent.onGenerate: [.filter(s => s.length > 0)]. *)
Definition parse_form (skillsInput : string) : list string :=
  filter (fun s => Nat.ltb 0 (String.length s)) (map trim (split_on "," skillsInput)).


(** Whether [c] occurs in [s] ([s.includes(c)]). *)
Fixpoint has_char (c : ascii) (s : string) : bool :=
  match s with
  | EmptyString => false
  | String d s' => Ascii.eqb d c || has_char c s'
  end.


(** [skills.join(', ')], the inverse direction used in the round trip. *)
Definition join (l : list string) : string := String.concat ", " l.

End Skills.

(* ------------------------------------------------------------------ *)
(** * ResumeGeneratorComponent.generateResume *)

Module ResumeGen.

Record State := mkState {
  resumeData : Resume.ResumeRequest;
  skillsInput : string;
  loading : bool;
  error : string
}.




End ResumeGen.

(* ------------------------------------------------------------------ *)
(** * AtsAnalyzerComponent: score colour and label *)

Module Score.

(** [getScoreColor(score)]; [score] is a finite JavaScript number. *)
Definition getScoreColor (score : Q) : string :=
  if Qle_bool (80 # 1)%Q score then "#22c55e"
  else if Qle_bool (60 # 1)%Q score then "#f59e0b"
  else "#ef4444".

(** [getScoreLabel(score)]. *)
Definition getScoreLabel (score : Q) : string :=
  if Qle_bool (80 # 1)%Q score then "Excellent - Ready to Apply!"
  else if Qle_bool (60 # 1)%Q score then "Good - Minor Improvements Needed"
  else if Qle_bool (40 # 1)%Q score then "Fair - Needs Optimization"
  else "Poor - Significant Changes Required".

End Score.

(* ------------------------------------------------------------------ *)
(** * LoadingInterceptor: [activeRequests] *)

Module Loading.

(** A request passing [intercept] (increment) or its [finalize] callback
    (decrement). *)
Inductive Event := Start | Finalize.

Definition step (activeRequests : Z) (ev : Event) : Z :=
  match ev with
  | Start => activeRequests + 1
  | Finalize => activeRequests - 1
  end%Z.

Definition run (evs : list Event) : Z := fold_left step evs 0%Z.

Definition count (ev : Event) (evs : list Event) : nat :=
  length (filter (fun e => match e, ev with
                           | Start, Start | Finalize, Finalize => true
                           | _, _ => false end) evs).


End Loading.

(* ------------------------------------------------------------------ *)
(** * NotificationService with its auto-dismiss timers *)

Module NotifTimers.

Record Svc := mkSvc {
  now : Z;
  notes : Notif.queue;
  timers : list (Z * string)   (* pending [setTimeout]s: due time, id *)
}.

(** [show(...)] at the current time: append, and for a positive duration
    schedule [remove(notification.id)] after [duration] ms. *)
Definition show (s : Svc) (nid : string) (t : Notif.kind) (msg : string) (dur : Z) : Svc :=
  mkSvc (now s) (Notif.show (notes s) nid t msg dur)
    (if (0 <? dur)%Z then app (timers s) [(now s + dur, nid)]%Z else timers s).

(** A manual dismissal ([NotificationComponent.remove]); the timer stays. *)
Definition dismiss (s : Svc) (rid : string) : Svc :=
  mkSvc (now s) (Notif.remove (notes s) rid) (timers s).

(** Let time pass to [T]: every timer due by [T] fires its [remove]. *)
Definition advance (s : Svc) (T : Z) : Svc :=
  let due := filter (fun p => (fst p <=? T)%Z) (timers s) in
  let rest := filter (fun p => negb (fst p <=? T)%Z) (timers s) in
  mkSvc T (fold_left (fun q p => Notif.remove q (snd p)) due (notes s)) rest.

End NotifTimers.

(* ------------------------------------------------------------------ *)
(** * ImageGenerationComponent.generateImage (validation and request) *)

Module ImageReq.



End ImageReq.

(* ------------------------------------------------------------------ *)
(** * Concrete inputs *)

Definition handled_statuses : list Z := [400; 401; 403; 404; 408; 500; 503; 0]%Z.

(** A backend whose every attempt emits the [HttpSentEvent] and fails
    with a 500 after 10 ms. *)
Definition e500 : HttpErrorResponse :=
  mkHttpErrorResponse 500 (BodyJson None)
    "Http failure response for http://localhost:8000/x: 500 Internal Server Error".

Definition failing_backend : Pipeline.Backend :=
  fun _ => Pipeline.mkAttempt 1 10 (Pipeline.Failed e500).

(** A backend whose first attempt hangs past the 120 s timeout. *)
Definition hanging_backend : Pipeline.Backend :=
  fun _ => Pipeline.mkAttempt 1 130000
             (Pipeline.Failed (mkHttpErrorResponse 0 BodyOther "")).

Definition e404 : HttpErrorResponse :=
  mkHttpErrorResponse 404 BodyOther
    "Http failure response for http://localhost:8000/x: 404 Not Found".

(* ================================================================== *)
(** * Properties *)

(** ** Helpers on strings *)

Lemma js_or_nonempty (a b : string) : b <> "" -> js_or a b <> "".
Proof.
  intros Hb. unfold js_or. destruct a as [|c a']; simpl; [exact Hb | discriminate].
Qed.

Lemma js_or_truthy (a b : string) : a <> "" -> js_or a b = a.
Proof. intros Ha. destruct a; [congruence | reflexivity]. Qed.

Lemma append_length' (a b : string) :
  String.length (a ++ b) = String.length a + String.length b.
Proof. induction a as [|c a IH]; simpl; [reflexivity | now rewrite IH]. Qed.

(** ** Notification queue *)

Lemma remove_absent (q : Notif.queue) (rid : string) :
  Forall (fun n => Notif.id n <> rid) q -> Notif.remove q rid = q.
Proof.
  induction 1 as [|n q Hn _ IH]; [reflexivity|].
  unfold Notif.remove in *; simpl.
  apply String.eqb_neq in Hn. rewrite Hn. simpl. now rewrite IH.
Qed.

Lemma remove_removes (q : Notif.queue) (rid : string) :
  Forall (fun n => Notif.id n <> rid) (Notif.remove q rid).
Proof.
  induction q as [|n q IH]; [constructor|].
  unfold Notif.remove in *; simpl.
  destruct (String.eqb (Notif.id n) rid) eqn:E; simpl; [exact IH|].
  constructor; [now apply String.eqb_neq | exact IH].
Qed.

(** C5: [remove] is idempotent: an absent id leaves the queue as it is,
    and removing an id twice is removing it once. *)
Theorem remove_idempotent (q : Notif.queue) (rid : string) :
  (Forall (fun n => Notif.id n <> rid) q -> Notif.remove q rid = q) /\
  Notif.remove (Notif.remove q rid) rid = Notif.remove q rid.
Proof.
  split; [apply remove_absent|].
  apply remove_absent, remove_removes.
Qed.

(** ** ImageService.getImageUrl *)

(** C10: [getImageUrl] returns its input unchanged exactly when the input is
    non-empty and starts with "http://" or "https://"; otherwise it returns
    "http://localhost:8000/images/" followed by the input. *)
Theorem getImageUrl_spec (s : string) :
  (getImageUrl s = s <->
     s <> "" /\ (startsWith s "http://" = true \/ startsWith s "https://" = true)) /\
  (~ (s <> "" /\ (startsWith s "http://" = true \/ startsWith s "https://" = true)) ->
     getImageUrl s = "http://localhost:8000/images/" ++ s).
Proof.
  assert (Hne : "http://localhost:8000/images/" ++ s <> s).
  { intros H. apply (f_equal String.length) in H.
    rewrite append_length' in H. simpl in H. lia. }
  assert (Htr : truthy s = true <-> s <> "").
  { destruct s; simpl; split; congruence. }
  unfold getImageUrl.
  destruct (truthy s) eqn:Ht; [destruct (startsWith s "http://") eqn:H1;
    [|destruct (startsWith s "https://") eqn:H2] |]; simpl.
  - split; [split; [intros _; split; [now apply Htr | now left] | reflexivity]|].
    intros H; exfalso; apply H; split; [now apply Htr | now left].
  - split; [split; [intros _; split; [now apply Htr | now right] | reflexivity]|].
    intros H; exfalso; apply H; split; [now apply Htr | now right].
  - split; [|reflexivity]. split; [intros H; now destruct (Hne H)|].
    intros [_ [H|H]]; discriminate.
  - split; [|reflexivity]. split; [intros H; now destruct (Hne H)|].
    intros [H _]. apply Htr in H. congruence.
Qed.

(** ** Interceptor's final-failure handler *)

(** C3: for a status in {400,401,403,404,408,500,503,0} the [catchError]
    callback computes a non-empty message (the [ErrorEvent] message for a
    client-side error, otherwise the status's table entry, where 400 and 500
    take a non-empty server [detail] first and the others ignore it), and
    appends exactly one error notification (7000 ms) to the queue. *)
Theorem final_failure_message (q : Notif.queue) (nid : string)
    (e : HttpErrorResponse) (Hs : In (status e) handled_statuses) :
  let '(q', msg) := Interceptor.on_final_failure q nid e in
  msg <> "" /\
  q' = app q [Notif.mkNotification nid Notif.error msg 7000] /\
  (forall m, err_body e = BodyErrorEvent m -> msg = "Client Error: " ++ m) /\
  ((forall m, err_body e <> BodyErrorEvent m) ->
     msg = Interceptor.getServerErrorMessage e /\
     ((status e = 400 \/ status e = 500)%Z -> detail_of (err_body e) <> "" ->
        msg = detail_of (err_body e)) /\
     (status e <> 400%Z -> status e <> 500%Z ->
        msg = Interceptor.getServerErrorMessage
                (mkHttpErrorResponse (status e) BodyOther (err_message e)))).
Proof.
  unfold Interceptor.on_final_failure, Interceptor.errorMessage,
    Interceptor.getServerErrorMessage.
  destruct e as [s b em]; simpl in *.
  split; [|split; [reflexivity|split]].
  - destruct b as [m|d|].
    + discriminate.
    + unfold handled_statuses in Hs; simpl in Hs.
      repeat (destruct Hs as [<-|Hs]; [simpl; first [apply js_or_nonempty; discriminate | discriminate]|]); contradiction.
    + unfold handled_statuses in Hs; simpl in Hs.
      repeat (destruct Hs as [<-|Hs]; [simpl; discriminate|]); contradiction.
  - intros m Hm. now subst b.
  - intros Hb. split; [|split].
  + destruct b as [m|d|]; [now destruct (Hb m) | reflexivity | reflexivity].
  + intros [-> | ->] Hd; destruct b as [m|d|]; try (now destruct (Hb m));
      simpl in *; try congruence; now apply js_or_truthy.
  + intros H400 H500. destruct b as [m|d|]; [now destruct (Hb m) | | reflexivity].
    unfold handled_statuses in Hs; simpl in Hs.
    repeat (destruct Hs as [<-|Hs]; [first [congruence | reflexivity]|]); contradiction.
Qed.

(** ** ApiService timeouts *)

(** C7: without an override GET, POST, PUT and DELETE all use the
    120000 ms default, and so do the ATS and resume calls; the
    image-generation call uses 300000 ms. *)
Theorem timeouts_default_and_override (ep data request : string) :
  Api.defaultTimeout = 120000%Z /\
  Api.timeout_of (Api.Get ep None) = 120000%Z /\
  Api.timeout_of (Api.Post ep data None) = 120000%Z /\
  Api.timeout_of (Api.Put ep data) = 120000%Z /\
  Api.timeout_of (Api.Delete ep) = 120000%Z /\
  Api.timeout_of (AtsService_analyzeResume request) = 120000%Z /\
  Api.timeout_of (ResumeService_generateResume request) = 120000%Z /\
  Api.timeout_of (ImageService_generateImage request) = 300000%Z.
Proof. repeat split. Qed.

(** ** AtsAnalyzerComponent *)

(** C6: with an empty [resumeText] or [jobDescription], [analyzeResume]
    sets the validation error and hands no request to the service; a
    request is handed over exactly when both fields are non-empty, and it
    carries both fields. *)
Theorem analyze_requires_both_fields (st : Ats.State) :
  ((Ats.resumeText st = "" \/ Ats.jobDescription st = "") ->
     snd (Ats.analyzeResume st) = None /\
     Ats.error (fst (Ats.analyzeResume st)) = "Please fill both fields") /\
  (snd (Ats.analyzeResume st) <> None <->
     Ats.resumeText st <> "" /\ Ats.jobDescription st <> "") /\
  (Ats.resumeText st <> "" -> Ats.jobDescription st <> "" ->
     snd (Ats.analyzeResume st) =
       Some (Ats.mkATSRequest (Ats.resumeText st) (Ats.jobDescription st))).
Proof.
  destruct st as [rt jd ld er]; unfold Ats.analyzeResume; simpl.
  destruct rt as [|c rt]; destruct jd as [|c' jd]; simpl;
    repeat split; intros; try tauto; try congruence;
    try (destruct H as [H|H]; discriminate).
Qed.

(** ** Image history *)

Lemma push_history_shape (h : list ImageGen.ImageGenerationResponse) r :
  length h <= 12 ->
  ImageGen.push_history h r = r :: firstn 11 h /\
  length (ImageGen.push_history h r) <= 12.
Proof.
  intros Hl. unfold ImageGen.push_history.
  destruct (Nat.ltb_spec 12 (length (r :: h))) as [Hlt|Hge].
  - assert (H12 : length h = 12) by (simpl in Hlt; lia).
    destruct h as [|x h']; [discriminate|].
    change (removelast (r :: x :: h')) with (r :: removelast (x :: h')).
    rewrite removelast_firstn_len, H12.
    split; [reflexivity|]. cbn [length]. rewrite length_firstn. lia.
  - simpl in Hge. rewrite firstn_all2 by lia. split; [reflexivity | simpl; lia].
Qed.

Lemma step_history (st : ImageGen.State) ev :
  ImageGen.st_history (ImageGen.step st ev) = ImageGen.st_history st \/
  exists r, ImageGen.step st ev = ImageGen.on_next st r.
Proof.
  destruct ev; simpl; try (left; reflexivity); try (right; eexists; reflexivity).
  destruct (ImageGen.blank _); left; reflexivity.
Qed.

Lemma history_bounded_from (evs : list ImageGen.Event) (st : ImageGen.State) :
  length (ImageGen.st_history st) <= 12 ->
  length (ImageGen.st_history (fold_left ImageGen.step evs st)) <= 12.
Proof.
  revert st; induction evs as [|ev evs IH]; intros st Hst; simpl; [exact Hst|].
  apply IH. destruct (step_history st ev) as [-> | [r ->]]; [exact Hst|].
  simpl. now apply push_history_shape.
Qed.

(** C2: in every reachable state the history holds at most 12 entries; a
    successful generation puts the (prompt- and style-stamped) response at
    index 0; when the history held 12 entries the entry at index 11 is
    dropped and the other 11 keep their order, otherwise nothing is dropped. *)
Theorem history_front_insert_evict (evs : list ImageGen.Event)
    (response : ImageGen.ImageGenerationResponse) :
  let st := ImageGen.run evs in
  let h := ImageGen.st_history st in
  let st' := ImageGen.on_next st response in
  let h' := ImageGen.st_history st' in
  length h <= 12 /\ length h' <= 12 /\
  hd_error h' = ImageGen.st_generatedImage st' /\
  (length h = 12 -> tl h' = firstn 11 h) /\
  (length h < 12 -> tl h' = h).
Proof.
  cbv zeta.
  assert (Hb : length (ImageGen.st_history (ImageGen.run evs)) <= 12)
    by (apply history_bounded_from; simpl; lia).
  unfold ImageGen.on_next; cbn [ImageGen.st_history ImageGen.st_generatedImage].
  destruct (push_history_shape _
    (ImageGen.mkResponse (ImageGen.image_url response) (ImageGen.enhanced_prompt response)
       (ImageGen.message response) (Some (ImageGen.st_prompt (ImageGen.run evs)))
       (Some (ImageGen.st_selectedStyle (ImageGen.run evs))) (ImageGen.metadata response))
    Hb) as [Hs Hl].
  rewrite Hs in *.
  split; [exact Hb|]. split; [exact Hl|]. split; [reflexivity|]. split.
  - intros _. reflexivity.
  - intros Hlt. apply firstn_all2. lia.
Qed.

(** ** Resume lists *)

Section Splice.
Context {A : Type}.

Lemma splice1_length (l : list A) (i : Z) :
  length l - 1 <= length (Resume.splice1 l i).
Proof.
  unfold Resume.splice1. rewrite length_app, length_firstn, length_skipn. lia.
Qed.

Lemma splice1_nonempty (l : list A) (i : Z) :
  1 < length l -> Resume.splice1 l i <> [].
Proof.
  intros H E. pose proof (splice1_length l i) as Hl. rewrite E in Hl. simpl in Hl. lia.
Qed.

Lemma Forall_firstn_skipn (P : A -> Prop) (l : list A) (n : nat) :
  Forall P l -> Forall P (firstn n l) /\ Forall P (skipn n l).
Proof.
  intros H. rewrite <- (firstn_skipn n l) in H. now apply Forall_app in H.
Qed.

Lemma Forall_splice1 (P : A -> Prop) (l : list A) (i : Z) :
  Forall P l -> Forall P (Resume.splice1 l i).
Proof.
  intros H. unfold Resume.splice1. apply Forall_app. split;
  [apply (Forall_firstn_skipn P l _ H) | apply (Forall_firstn_skipn P l _ H)].
Qed.

Lemma Forall_set (P : A -> Prop) (l : list A) (i : Z) (x : A) :
  Forall P l -> P x -> Forall P (Resume.set l i x).
Proof.
  intros H Hx. unfold Resume.set. apply Forall_app. split;
  [apply (Forall_firstn_skipn P l _ H) | constructor; [exact Hx | apply (Forall_firstn_skipn P l _ H)]].
Qed.

Lemma set_nonempty (l : list A) (i : Z) (x : A) : Resume.set l i x <> [].
Proof. unfold Resume.set. destruct (firstn _ l); discriminate. Qed.

Lemma get_In (l : list A) (i : Z) (x : A) : Resume.get l i = Some x -> In x l.
Proof.
  unfold Resume.get. destruct (i <? 0)%Z; [discriminate|]. apply nth_error_In.
Qed.

End Splice.

Lemma app_cons_nonempty {A} (l : list A) (x : A) : (l ++ [x])%list <> [].
Proof. destruct l; discriminate. Qed.

Lemma generator_step_preserves (o : Resume.op) (r r' : Resume.ResumeRequest) :
  Resume.lists_nonempty r -> Resume.generator_step o r = Some r' ->
  Resume.lists_nonempty r'.
Proof.
  intros (Hex & Hed & Hall) Hstep.
  destruct o as [ | i | ei | ei ri | | i ]; simpl in Hstep.
  - injection Hstep as <-. repeat split; simpl; [apply app_cons_nonempty | exact Hed|].
    apply Forall_app. split; [exact Hall | constructor; [discriminate | constructor]].
  - destruct (Nat.ltb_spec 1 (length (Resume.experience r))) as [Hlt|_];
      injection Hstep as <-; [|now split].
    repeat split; simpl; [now apply splice1_nonempty | exact Hed | now apply Forall_splice1].
  - destruct (Resume.get _ ei) as [e|] eqn:Hg; [|discriminate].
    injection Hstep as <-. repeat split; simpl; [apply set_nonempty | exact Hed|].
    apply Forall_set; [exact Hall|]. simpl. apply app_cons_nonempty.
  - destruct (Resume.get _ ei) as [e|] eqn:Hg; [|discriminate].
    destruct (Nat.ltb_spec 1 (length (Resume.responsibilities e))) as [Hlt|_];
      injection Hstep as <-; [|now split].
    repeat split; simpl; [apply set_nonempty | exact Hed|].
    apply Forall_set; [exact Hall|]. simpl. now apply splice1_nonempty.
  - injection Hstep as <-. repeat split; simpl; [exact Hex | apply app_cons_nonempty | exact Hall].
  - destruct (Nat.ltb_spec 1 (length (Resume.education r))) as [Hlt|_];
      injection Hstep as <-; [|now split].
    repeat split; simpl; [exact Hex | now apply splice1_nonempty | exact Hall].
Qed.

(** The form component performs the same mutations as the generator. *)
Lemma form_step_generator (o : Resume.op) (r : Resume.ResumeRequest) :
  option_map fst (Resume.form_step o r) = Resume.generator_step o r.
Proof.
  destruct o; simpl;
    repeat match goal with
           | |- context [if ?c then _ else _] => destruct c
           | |- context [match ?m with Some _ => _ | None => _ end] => destruct m
           end; reflexivity.
Qed.

Lemma run_generator_preserves (ops : list Resume.op) (r : Resume.ResumeRequest) :
  Resume.lists_nonempty r -> Resume.lists_nonempty (Resume.run_generator ops r).
Proof.
  revert r; induction ops as [|o ops IH]; intros r Hr; simpl; [exact Hr|].
  apply IH. destruct (Resume.generator_step o r) eqn:E; [|exact Hr].
  exact (generator_step_preserves o r r0 Hr E).
Qed.

Lemma run_form_generator (ops : list Resume.op) (r : Resume.ResumeRequest) :
  Resume.run_form ops r = Resume.run_generator ops r.
Proof.
  revert r; induction ops as [|o ops IH]; intros r; simpl; [reflexivity|].
  rewrite IH. f_equal. pose proof (form_step_generator o r) as E.
  destruct (Resume.form_step o r) as [[r' b]|]; simpl in E; now rewrite <- E.
Qed.

Lemma initial_lists_nonempty : Resume.lists_nonempty Resume.initial.
Proof. repeat split; simpl; try discriminate. repeat constructor. discriminate. Qed.

(** C9: in both resume components the experience list, the education list
    and every entry's responsibilities list stay non-empty: from the
    generator's initial data and from any data where they are non-empty,
    every sequence of add/remove calls keeps them non-empty, and a remove
    on a one-entry list changes nothing (the form emits no change). *)
Theorem resume_lists_never_empty (ops : list Resume.op) (r : Resume.ResumeRequest) :
  Resume.lists_nonempty (Resume.run_generator ops Resume.initial) /\
  (Resume.lists_nonempty r ->
     Resume.lists_nonempty (Resume.run_generator ops r) /\
     Resume.lists_nonempty (Resume.run_form ops r)) /\
  (forall i, length (Resume.experience r) <= 1 ->
     Resume.generator_step (Resume.RemoveExperience i) r = Some r /\
     Resume.form_step (Resume.RemoveExperience i) r = Some (r, false)) /\
  (forall i, length (Resume.education r) <= 1 ->
     Resume.generator_step (Resume.RemoveEducation i) r = Some r /\
     Resume.form_step (Resume.RemoveEducation i) r = Some (r, false)) /\
  (forall ei ri e, Resume.get (Resume.experience r) ei = Some e ->
     length (Resume.responsibilities e) <= 1 ->
     Resume.generator_step (Resume.RemoveResponsibility ei ri) r = Some r /\
     Resume.form_step (Resume.RemoveResponsibility ei ri) r = Some (r, false)).
Proof.
  split; [apply run_generator_preserves, initial_lists_nonempty|].
  split; [intros H; rewrite run_form_generator; split; now apply run_generator_preserves|].
  split; [|split].
  - intros i H. simpl. destruct (Nat.ltb_spec 1 (length (Resume.experience r))); [lia|].
    split; reflexivity.
  - intros i H. simpl. destruct (Nat.ltb_spec 1 (length (Resume.education r))); [lia|].
    split; reflexivity.
  - intros ei ri e Hg H. simpl. rewrite Hg.
    destruct (Nat.ltb_spec 1 (length (Resume.responsibilities e))); [lia|].
    split; reflexivity.
Qed.

(** ** The retry / timeout pipeline *)

Section RetryRuns.
Import Pipeline.

Lemma retry_run_after (fuel : nat) (cfg : RetryConfig) (src : Backend)
    (k s : nat) (t : Z) :
  (forall j, 0 <= a_duration (src j))%Z -> (0 <= delay cfg)%Z ->
  Forall (fun x => t <= x)%Z (run_starts (retry_run fuel cfg src k s t)) /\
  (t <= run_time (retry_run fuel cfg src k s t))%Z.
Proof.
  intros Hd Hdl. revert k s t.
  induction fuel as [|f IH]; intros k s t; simpl; [split; [constructor | lia]|].
  pose proof (Hd k) as Hk.
  destruct (a_end (src k)) as [b|e]; [split; [repeat constructor; lia | simpl; lia]|].
  destruct (_ <? count cfg)%nat.
  - destruct (IH (S k) (S (if resetOnSuccess cfg && (0 <? a_values (src k))%nat then 0%nat else s))
      (t + a_duration (src k) + delay cfg)%Z) as [H1 H2].
    destruct (retry_run f cfg src _ _ _) eqn:E; simpl in *;
      (split; [constructor; [lia|] | lia]);
      eapply Forall_impl; try exact H1; simpl; lia.
  - split; [repeat constructor; lia | simpl; lia].
Qed.

(** With [resetOnSuccess: true], a backend that emits a value (the
    [HttpSentEvent]) at every attempt and then fails is resubscribed at
    every attempt: the run never reaches the [catchError] callback. *)
Lemma retry_resubscribes_forever (src : Backend) (fuel k s : nat) (t : Z) :
  (forall j, (1 <= a_values (src j))%nat /\ exists e, a_end (src j) = Failed e) ->
  exists tn starts,
    retry_run fuel interceptorRetry src k s t = Pending tn starts /\
    length starts = fuel.
Proof.
  intros Hsrc. revert k s t.
  induction fuel as [|f IH]; intros k s t; simpl; [now exists t, []|].
  destruct (Hsrc k) as [Hv [e He]]. rewrite He.
  destruct (Nat.ltb_spec 0 (a_values (src k))) as [_|]; [|lia]. simpl.
  destruct (IH (S k) 1%nat (t + a_duration (src k) + 1000)%Z) as (tn & st & E & L).
  rewrite E. exists tn, (t :: st). split; [reflexivity | simpl; lia].
Qed.

(** Without emitted values the same configuration resubscribes once,
    1000 ms after the failure, and then forwards the second error. *)
Lemma retry_once_without_values (src : Backend) (fuel : nat) (t : Z) e0 e1 :
  a_values (src 0%nat) = 0%nat -> a_end (src 0%nat) = Failed e0 ->
  a_values (src 1%nat) = 0%nat -> a_end (src 1%nat) = Failed e1 ->
  retry_run (S (S fuel)) interceptorRetry src 0 0 t =
    Done (t + a_duration (src 0%nat) + 1000 + a_duration (src 1%nat))%Z
         [t; (t + a_duration (src 0%nat) + 1000)%Z] (Failed e1).
Proof.
  intros V0 E0 V1 E1. simpl. rewrite V0, E0, V1, E1. reflexivity.
Qed.

End RetryRuns.


Lemma before_all_late (deadline : Z) (s : list Z) :
  Forall (fun x => deadline <= x)%Z s -> Pipeline.before deadline s = [].
Proof.
  induction 1 as [|x s Hx _ IH]; [reflexivity|].
  unfold Pipeline.before in *; simpl.
  destruct (Z.ltb_spec x deadline); [lia | exact IH].
Qed.

(** C1: the interceptor's [retry({count: 1, delay: 1000, resetOnSuccess: true})]
    does not stop after one retry when each attempt emits the
    [HttpSentEvent] before failing: [resetOnSuccess] resets the counter,
    so every attempt is followed by another one. At a concrete input, a
    GET whose backend fails with a 500 after 10 ms is resubscribed every
    1010 ms, 119 attempts in all, until ApiService's 120 s timeout ends the
    call; the final-failure callback never runs (no notification). *)
Theorem failed_request_retried_until_timeout :
  (forall (src : Pipeline.Backend) (n : nat),
     (forall j, (1 <= Pipeline.a_values (src j))%nat /\
                exists e, Pipeline.a_end (src j) = Pipeline.Failed e) ->
     exists tn starts,
       Pipeline.retry_run n Pipeline.interceptorRetry src 0 0 0 = Pipeline.Pending tn starts /\
       length starts = n) /\
  let o := Pipeline.api_call 200 [] "n1" failing_backend (Api.Get "/x" None) in
  Pipeline.result o = Pipeline.Err "Timeout has occurred" /\
  length (Pipeline.subscriptions o) = 119 /\
  firstn 3 (Pipeline.subscriptions o) = [0; 1010; 2020]%Z /\
  Pipeline.notifications o = [].
Proof.
  split.
  - intros src n Hsrc. exact (retry_resubscribes_forever src n 0 0 0 Hsrc).
  - vm_compute. repeat split.
Qed.

(** C4 (amended): a POST /ats/analyze whose first attempt does not finish
    within ApiService's 120 s timeout is ended by that timeout, outside
    the interceptor: it is not retried (one backend attempt), no
    notification is queued, and the surfaced message is rxjs's
    "Timeout has occurred" passed through [handleError]. *)
Theorem ats_timeout_not_retried (fuel : nat) (q : Notif.queue) (nid request : string)
    (src : Pipeline.Backend)
    (Hnonneg : forall j, (0 <= Pipeline.a_duration (src j))%Z)
    (Hslow : (Api.defaultTimeout <= Pipeline.a_duration (src 0%nat))%Z) :
  Pipeline.api_call (S fuel) q nid src (AtsService_analyzeResume request) =
    Pipeline.mkOutcome (Pipeline.Err "Timeout has occurred") [0%Z] q.
Proof.
  unfold Api.defaultTimeout in Hslow. unfold Pipeline.api_call.
  change (Api.timeout_of (AtsService_analyzeResume request)) with 120000%Z.
  cbn [Pipeline.retry_run].
  destruct (Pipeline.a_end (src 0%nat)) as [b|e].
  - destruct (Z.ltb_spec (0 + Pipeline.a_duration (src 0%nat)) 120000); [lia|].
    reflexivity.
  - set (s1 := if _ && _ then 0%nat else 0%nat).
    assert (Hs1 : s1 = 0%nat) by (unfold s1; destruct (_ && _); reflexivity).
    rewrite Hs1. cbn -[Pipeline.retry_run].
    destruct (retry_run_after fuel Pipeline.interceptorRetry src 1 1
      (0 + Pipeline.a_duration (src 0%nat) + 1000)%Z Hnonneg) as [H1 H2];
      [simpl; lia|].
    assert (Hlate : Pipeline.before 120000
      (Pipeline.run_starts (Pipeline.retry_run fuel Pipeline.interceptorRetry src 1 1
         (0 + Pipeline.a_duration (src 0%nat) + 1000))) = []).
    { apply before_all_late. eapply Forall_impl; [|exact H1]. simpl. lia. }
    destruct (Pipeline.retry_run fuel _ src 1 1 _) as [te st c|tn st];
      simpl in H2, Hlate |- *.
    + destruct (Z.ltb_spec te 120000); [lia|].
      destruct c; unfold Pipeline.before; simpl; fold (Pipeline.before 120000 st);
        rewrite Hlate; reflexivity.
    + destruct (Z.ltb_spec tn 120000); [lia|].
      unfold Pipeline.before; simpl; fold (Pipeline.before 120000 st);
        rewrite Hlate; reflexivity.
Qed.

Lemma getServerErrorMessage_nonempty (e : HttpErrorResponse) :
  Interceptor.getServerErrorMessage e <> "".
Proof.
  unfold Interceptor.getServerErrorMessage.
  destruct (status e) as [|p|p]; [discriminate| |apply js_or_nonempty; discriminate];
    repeat match goal with
           | |- context [match ?x with xI _ => _ | xO _ => _ | xH => _ end] => destruct x
           end;
    first [discriminate | apply js_or_nonempty; discriminate].
Qed.

Lemma errorMessage_nonempty (e : HttpErrorResponse) : Interceptor.errorMessage e <> "".
Proof.
  unfold Interceptor.errorMessage. destruct (err_body e);
    [discriminate | apply getServerErrorMessage_nonempty | apply getServerErrorMessage_nonempty].
Qed.

(** C8 (amended): ApiService adds no retry of its own (its backend
    attempts are those of the single intercepted run) and has no
    status-code table: [handleError] ignores the status; it gives
    "Error: <message>" for an [ErrorEvent], else a non-empty server
    [detail], else the error's own message, else "Server error"; so the
    interceptor's message is surfaced unchanged and a timeout surfaces as
    "Timeout has occurred". *)
Theorem handleError_no_status_table :
  (forall fuel q nid src c,
     incl (Pipeline.subscriptions (Pipeline.api_call fuel q nid src c))
          (Pipeline.run_starts (Pipeline.retry_run fuel Pipeline.interceptorRetry src 0 0 0))) /\
  (forall e s, Api.handleError (Api.JsHttp e) =
               Api.handleError (Api.JsHttp (mkHttpErrorResponse s (err_body e) (err_message e)))) /\
  (forall e m, err_body e = BodyErrorEvent m -> Api.handleError (Api.JsHttp e) = "Error: " ++ m) /\
  (forall e d, err_body e = BodyJson (Some d) -> d <> "" -> Api.handleError (Api.JsHttp e) = d) /\
  (forall e, detail_of (err_body e) = "" -> (forall m, err_body e <> BodyErrorEvent m) ->
     Api.handleError (Api.JsHttp e) = js_or (err_message e) "Server error") /\
  (forall e, Api.handleError (Api.JsPlain (Interceptor.errorMessage e)) = Interceptor.errorMessage e) /\
  Api.handleError Api.JsTimeout = "Timeout has occurred".
Proof.
  split; [|split; [|split; [|split; [|split; [|split]]]]].
  - intros fuel q nid src c x. unfold Pipeline.api_call.
    destruct (Pipeline.retry_run fuel _ src 0 0 0) as [te s cpl|tn s]; simpl;
      [destruct cpl; destruct (te <? _)%Z | destruct (tn <? _)%Z]; simpl; try tauto;
      unfold Pipeline.before; intros Hx; apply filter_In in Hx; tauto.
  - intros [st b em] s. reflexivity.
  - intros [st b em] m H; simpl in *; subst b; reflexivity.
  - intros [st b em] d H Hd; simpl in *; subst b. simpl.
    rewrite (js_or_truthy d em Hd). now apply js_or_truthy.
  - intros [st b em] Hd Hb; simpl in *.
    destruct b as [m|[d|]|]; [now destruct (Hb m) | simpl in Hd; subst d | |]; reflexivity.
  - intros e. apply js_or_truthy, errorMessage_nonempty.
  - reflexivity.
Qed.

(** ** Witnesses and counterexamples at concrete inputs *)

Lemma final_failure_message_witness :
  In (status e500) handled_statuses /\
  snd (Interceptor.on_final_failure [] "n1" e500) <> "".
Proof.
  assert (H : In (status e500) handled_statuses) by (vm_compute; auto 10).
  split; [exact H|].
  pose proof (final_failure_message [] "n1" e500 H) as W. simpl in W.
  destruct W as [W _]. exact W.
Defined.

Lemma ats_timeout_not_retried_witness :
  (forall j, (0 <= Pipeline.a_duration (hanging_backend j))%Z) /\
  (Api.defaultTimeout <= Pipeline.a_duration (hanging_backend 0%nat))%Z /\
  Pipeline.api_call 10 [] "n1" hanging_backend (AtsService_analyzeResume "r") =
    Pipeline.mkOutcome (Pipeline.Err "Timeout has occurred") [0%Z] [].
Proof.
  assert (H1 : forall j, (0 <= Pipeline.a_duration (hanging_backend j))%Z)
    by (intros j; simpl; lia).
  assert (H2 : (Api.defaultTimeout <= Pipeline.a_duration (hanging_backend 0%nat))%Z)
    by (simpl; unfold Api.defaultTimeout; lia).
  split; [exact H1|]. split; [exact H2|].
  exact (ats_timeout_not_retried 9 [] "n1" "r" hanging_backend H1 H2).
Defined.

(** C4 fails as stated: the timed-out ATS call gets one attempt, no retry,
    and its message is not the 408 ("timeout-class") message. *)
Lemma ats_timeout_counterexample :
  let o := Pipeline.api_call 10 [] "n1" hanging_backend (AtsService_analyzeResume "r") in
  length (Pipeline.subscriptions o) = 1 /\
  Pipeline.result o <>
    Pipeline.Err (Interceptor.getServerErrorMessage (mkHttpErrorResponse 408 BodyOther "")).
Proof. vm_compute. split; [reflexivity | discriminate]. Qed.

(** C8 fails as stated: with no server detail, [handleError] falls back to
    the error's own message, not to a status-code table. *)
Lemma handleError_counterexample :
  detail_of (err_body e404) = "" /\
  Api.handleError (Api.JsHttp e404) = err_message e404 /\
  Api.handleError (Api.JsHttp e404) <> Interceptor.getServerErrorMessage e404.
Proof. vm_compute. split; [reflexivity | split; [reflexivity | discriminate]]. Qed.

(* ================================================================== *)
(** * Further properties of the code *)

(** ** Skills parsing *)

Section SkillsParsing.

Lemma split_on_nonempty (sep : ascii) (s : string) : Skills.split_on sep s <> [].
Proof.
  induction s as [|c s IH]; simpl; [discriminate|].
  destruct (Ascii.eqb c sep); [discriminate|]. destruct (Skills.split_on sep s); discriminate.
Qed.









End SkillsParsing.


Lemma split_on_nosep (sep : ascii) (x : string) :
  Skills.has_char sep x = false -> Skills.split_on sep x = [x].
Proof.
  induction x as [|c x IH]; simpl; [reflexivity|].
  intros H. apply orb_false_iff in H as [Hc Hx]. rewrite Hc, (IH Hx). reflexivity.
Qed.

Lemma split_on_app (sep : ascii) (x r : string) :
  Skills.has_char sep x = false ->
  Skills.split_on sep (x ++ String sep r) = x :: Skills.split_on sep r.
Proof.
  induction x as [|c x IH]; simpl; intros H.
  - rewrite Ascii.eqb_refl. reflexivity.
  - apply orb_false_iff in H as [Hc Hx]. rewrite Hc, (IH Hx). reflexivity.
Qed.

Lemma trim_space (y : string) : Skills.trim (String " " y) = Skills.trim y.
Proof. reflexivity. Qed.

Lemma map_trim_split_join (l : list string) :
  l <> [] -> Forall (fun x => Skills.has_char "," x = false /\ Skills.trim x = x) l ->
  map Skills.trim (Skills.split_on "," (Skills.join l)) = l.
Proof.
  intros Hne Hall. unfold Skills.join.
  induction Hall as [|x xs [Hc Ht] Hxs IH]; [congruence|].
  destruct xs as [|x' xs'].
  - simpl. rewrite (split_on_nosep _ _ Hc). simpl. now rewrite Ht.
  - change (String.concat ", " (x :: x' :: xs'))
      with (x ++ String "," (String " " (String.concat ", " (x' :: xs')))).
    rewrite (split_on_app _ _ _ Hc).
    assert (Hsp : forall r, Skills.split_on "," (String " " r) =
                  match Skills.split_on "," r with
                  | h :: t => String " " h :: t | [] => [String " " EmptyString] end)
      by reflexivity.
    rewrite Hsp. specialize (IH ltac:(discriminate)).
    destruct (Skills.split_on "," (String.concat ", " (x' :: xs'))) as [|h t];
      [discriminate|].
    simpl in IH |- *. rewrite Ht. f_equal. exact IH.
Qed.

(** X: round trip: joining skills with ", " and parsing the result gives
    back the same list, when each skill is non-empty, comma-free and
    trimmed. *)
Theorem skills_join_parse_roundtrip (l : list string) :
  Forall (fun x => x <> "" /\ Skills.has_char "," x = false /\ Skills.trim x = x) l ->
  Skills.parse_form (Skills.join l) = l.
Proof.
  intros Hall. destruct l as [|x xs]; [reflexivity|].
  unfold Skills.parse_form. rewrite map_trim_split_join.
  - apply forallb_filter_id, forallb_forall. intros y Hy.
    rewrite Forall_forall in Hall. destruct (Hall y Hy) as [Hne _].
    destruct y; [congruence | reflexivity].
  - discriminate.
  - eapply Forall_impl; [|exact Hall]. simpl. tauto.
Qed.




Lemma skills_join_parse_roundtrip_witness :
  Forall (fun x => x <> "" /\ Skills.has_char "," x = false /\ Skills.trim x = x)
    ["Rust"; "Type Script"] /\
  Skills.parse_form (Skills.join ["Rust"; "Type Script"]) = ["Rust"; "Type Script"].
Proof.
  assert (H : Forall (fun x => x <> "" /\ Skills.has_char "," x = false /\ Skills.trim x = x)
    ["Rust"; "Type Script"]).
  { repeat constructor; discriminate. }
  split; [exact H | exact (skills_join_parse_roundtrip _ H)].
Defined.

(** ** ResumeGeneratorComponent.generateResume *)


(** ** [splice(index, 1)] in the remove methods *)

Section SpliceIndex.
Context {A : Type}.

Lemma splice1_in_range (l : list A) (i : nat) :
  i < length l ->
  length (Resume.splice1 l (Z.of_nat i)) = length l - 1 /\
  forall j, nth_error (Resume.splice1 l (Z.of_nat i)) j =
            nth_error l (if Nat.ltb j i then j else S j).
Proof.
  intros Hi. unfold Resume.splice1.
  destruct (Z.ltb_spec (Z.of_nat i) 0); [lia|].
  replace (Z.to_nat (Z.min (Z.of_nat i) (Z.of_nat (length l)))) with i by lia.
  split; [rewrite length_app, length_firstn, length_skipn; lia|].
  intros j. destruct (Nat.ltb_spec j i).
  - rewrite nth_error_app1 by (rewrite length_firstn; lia).
    rewrite nth_error_firstn. destruct (Nat.ltb_spec j i); [reflexivity | lia].
  - rewrite nth_error_app2 by (rewrite length_firstn; lia).
    rewrite nth_error_skipn, length_firstn. f_equal. lia.
Qed.

End SpliceIndex.

(** X: the index semantics of the remove methods' [splice(index, 1)]: an
    index in [0, n) removes exactly that entry and shifts the later ones;
    an index at or past the end removes nothing; an index in [-n, 0) counts
    from the end; an index below -n removes the first entry. *)
Theorem splice_index_semantics {A : Type} (l : list A) (i : Z) :
  let n := Z.of_nat (length l) in
  ((0 <= i < n)%Z ->
     length (Resume.splice1 l i) = length l - 1 /\
     forall j, nth_error (Resume.splice1 l i) j =
               nth_error l (if Nat.ltb j (Z.to_nat i) then j else S j)) /\
  ((n <= i)%Z -> Resume.splice1 l i = l) /\
  ((- n <= i < 0)%Z -> Resume.splice1 l i = Resume.splice1 l (n + i)) /\
  ((i < - n)%Z -> Resume.splice1 l i = tl l).
Proof.
  intros n. split; [|split; [|split]].
  - intros Hi. pose proof (splice1_in_range l (Z.to_nat i) ltac:(lia)) as H.
    rewrite Z2Nat.id in H by lia. exact H.
  - intros Hi. unfold Resume.splice1. destruct (Z.ltb_spec i 0); [lia|].
    replace (Z.to_nat (Z.min i (Z.of_nat (length l)))) with (length l) by lia.
    rewrite firstn_all, skipn_all2 by lia. apply app_nil_r.
  - intros Hi. unfold Resume.splice1. fold n.
    destruct (Z.ltb_spec i 0); [|lia]. destruct (Z.ltb_spec (n + i) 0); [lia|].
    f_equal; f_equal; f_equal; lia.
  - intros Hi. unfold Resume.splice1. fold n.
    destruct (Z.ltb_spec i 0); [|lia].
    replace (Z.to_nat (Z.max (n + i) 0)) with 0%nat by lia.
    destruct l; reflexivity.
Qed.

(** X: on a list of two or more entries, [removeExperience(i)] of the form
    component with an index at or past the end removes nothing but still
    emits a change event. *)
Theorem form_remove_out_of_range_emits (r : Resume.ResumeRequest) (i : Z)
    (Hlen : 1 < length (Resume.experience r))
    (Hi : (Z.of_nat (length (Resume.experience r)) <= i)%Z) :
  Resume.form_step (Resume.RemoveExperience i) r = Some (r, true).
Proof.
  simpl. destruct (Nat.ltb_spec 1 (length (Resume.experience r))); [|lia].
  unfold Resume.splice1. destruct (Z.ltb_spec i 0); [lia|].
  replace (Z.to_nat (Z.min i (Z.of_nat (length (Resume.experience r)))))
    with (length (Resume.experience r)) by lia.
  rewrite firstn_all, skipn_all2 by lia. rewrite app_nil_r.
  destruct r; reflexivity.
Qed.





Lemma form_remove_out_of_range_emits_witness :
  let r := Resume.run_generator [Resume.AddExperience] Resume.initial in
  1 < length (Resume.experience r) /\
  (Z.of_nat (length (Resume.experience r)) <= 5)%Z /\
  Resume.form_step (Resume.RemoveExperience 5) r = Some (r, true).
Proof.
  intros r.
  assert (H1 : 1 < length (Resume.experience r)) by (vm_compute; lia).
  assert (H2 : (Z.of_nat (length (Resume.experience r)) <= 5)%Z) by (vm_compute; discriminate).
  split; [exact H1|]. split; [exact H2|].
  exact (form_remove_out_of_range_emits r 5 H1 H2).
Defined.

(** ** ATS score colour and label *)

Lemma Qle_bool_false x y : Qle_bool x y = false -> (y < x)%Q.
Proof. intros H. apply Qnot_le_lt. intros Hq. apply Qle_bool_iff in Hq. congruence. Qed.

(** X: [getScoreColor] and [getScoreLabel] agree: green exactly for
    "Excellent" (score >= 80), amber exactly for "Good" (60 <= score < 80),
    red exactly for "Fair" or "Poor"; "Poor" is exactly score < 40. *)
Theorem score_color_label_agree (score : Q) :
  (Score.getScoreColor score = "#22c55e" <->
     Score.getScoreLabel score = "Excellent - Ready to Apply!") /\
  (Score.getScoreColor score = "#f59e0b" <->
     Score.getScoreLabel score = "Good - Minor Improvements Needed") /\
  (Score.getScoreColor score = "#ef4444" <->
     Score.getScoreLabel score = "Fair - Needs Optimization" \/
     Score.getScoreLabel score = "Poor - Significant Changes Required") /\
  (Score.getScoreLabel score = "Excellent - Ready to Apply!" <-> (80 # 1 <= score)%Q) /\
  (Score.getScoreLabel score = "Good - Minor Improvements Needed" <->
     (60 # 1 <= score)%Q /\ (score < 80 # 1)%Q) /\
  (Score.getScoreLabel score = "Poor - Significant Changes Required" <-> (score < 40 # 1)%Q).
Proof.
  unfold Score.getScoreColor, Score.getScoreLabel.
  destruct (Qle_bool (80 # 1) score) eqn:E80;
  [|destruct (Qle_bool (60 # 1) score) eqn:E60;
    [|destruct (Qle_bool (40 # 1) score) eqn:E40]];
  repeat match goal with H : Qle_bool _ _ = true |- _ => apply Qle_bool_iff in H end;
  repeat match goal with H : Qle_bool _ _ = false |- _ =>
    apply Qle_bool_false in H end;
  repeat split; intros;
  repeat match goal with H : _ /\ _ |- _ => destruct H end;
  first [ reflexivity | discriminate | now left | now right
        | match goal with H : _ \/ _ |- _ => destruct H; discriminate end
        | lra | exfalso; lra ].
Qed.

(** ** LoadingInterceptor: the [activeRequests] counter *)




(** ** NotificationService: auto-dismiss timers *)

Lemma fold_remove_filter (due : list (Z * string)) (q : Notif.queue) :
  fold_left (fun q p => Notif.remove q (snd p)) due q =
    filter (fun n => negb (existsb (fun p => String.eqb (snd p) (Notif.id n)) due)) q.
Proof.
  revert q; induction due as [|p due IH]; intros q; simpl.
  - induction q as [|n q IHq]; simpl; [reflexivity | now rewrite <- IHq].
  - rewrite IH. unfold Notif.remove. clear IH.
    induction q as [|n q IHq]; simpl; [reflexivity|].
    rewrite String.eqb_sym.
    destruct (String.eqb (snd p) (Notif.id n)); simpl; [exact IHq|].
    destruct (existsb _ due); simpl; [exact IHq | now rewrite IHq].
Qed.

Lemma existsb_filter {A} (f g : A -> bool) (l : list A) :
  existsb f (filter g l) = existsb (fun x => g x && f x) l.
Proof.
  induction l as [|x l IH]; simpl; [reflexivity|].
  destruct (g x); simpl; [now rewrite IH | exact IH].
Qed.

Lemma advance_notes (s : NotifTimers.Svc) (T : Z) :
  NotifTimers.notes (NotifTimers.advance s T) =
    filter (fun n => negb (existsb (fun p => (fst p <=? T)%Z && String.eqb (snd p) (Notif.id n))
                                   (NotifTimers.timers s)))
           (NotifTimers.notes s).
Proof.
  unfold NotifTimers.advance. simpl. rewrite fold_remove_filter.
  induction (NotifTimers.notes s) as [|n q IH]; simpl; [reflexivity|].
  rewrite existsb_filter. now rewrite IH.
Qed.

(** X: letting time pass to [T] removes exactly the notifications whose
    id has a [setTimeout] due by [T] (a notification shown with a
    positive duration is gone once its duration has elapsed), keeps the
    others in order, and leaves only the timers not yet due. *)
Theorem advance_removes_due (s : NotifTimers.Svc) (T : Z) :
  NotifTimers.notes (NotifTimers.advance s T) =
    filter (fun n => negb (existsb (fun p => (fst p <=? T)%Z && String.eqb (snd p) (Notif.id n))
                                   (NotifTimers.timers s)))
           (NotifTimers.notes s) /\
  Forall (fun p => (T < fst p)%Z) (NotifTimers.timers (NotifTimers.advance s T)) /\
  (forall nid t msg dur, (0 < dur)%Z -> (NotifTimers.now s + dur <= T)%Z ->
     Forall (fun n => Notif.id n <> nid)
       (NotifTimers.notes (NotifTimers.advance (NotifTimers.show s nid t msg dur) T))).
Proof.
  split; [apply advance_notes|]. split.
  - apply Forall_forall. intros p Hp. simpl in Hp. apply filter_In in Hp as [_ Hp].
    destruct (Z.leb_spec (fst p) T); [discriminate | lia].
  - intros nid t msg dur Hd HT. apply Forall_forall. intros n Hn Hid.
    rewrite advance_notes in Hn. apply filter_In in Hn as [_ Hn].
    apply negb_true_iff in Hn.
    assert (Hex : existsb (fun p => (fst p <=? T)%Z && String.eqb (snd p) (Notif.id n))
                    (NotifTimers.timers (NotifTimers.show s nid t msg dur)) = true).
    { apply existsb_exists. exists (NotifTimers.now s + dur, nid)%Z. split.
      - unfold NotifTimers.show. simpl. destruct (Z.ltb_spec 0 dur); [|lia].
        apply in_or_app. right. left. reflexivity.
      - simpl. apply andb_true_iff. split; [apply Z.leb_le; lia|].
        apply String.eqb_eq. now symmetry. }
    congruence.
Qed.

(** X: a notification shown with a duration of 0 or less schedules no
    timer: unless another pending timer carries its id, it stays in the
    queue whatever time passes. *)
Theorem nonpositive_duration_persists (s : NotifTimers.Svc) (nid : string)
    (t : Notif.kind) (msg : string) (dur T : Z)
    (Hdur : (dur <= 0)%Z)
    (Hfree : Forall (fun p => snd p <> nid) (NotifTimers.timers s)) :
  In (Notif.mkNotification nid t msg dur)
     (NotifTimers.notes (NotifTimers.advance (NotifTimers.show s nid t msg dur) T)).
Proof.
  rewrite advance_notes. apply filter_In. split.
  - simpl. unfold Notif.show. apply in_or_app. right. left. reflexivity.
  - unfold NotifTimers.show. simpl. destruct (Z.ltb_spec 0 dur); [lia|].
    apply negb_true_iff. apply not_true_is_false. intros Hex.
    apply existsb_exists in Hex as (p & Hp & Hc).
    apply andb_true_iff in Hc as [_ Hc]. apply String.eqb_eq in Hc.
    rewrite Forall_forall in Hfree. exact (Hfree p Hp Hc).
Qed.

Lemma nonpositive_duration_persists_witness :
  (0 <= 0)%Z /\
  Forall (fun p => snd p <> "n2") [(5000%Z, "n1")] /\
  In (Notif.mkNotification "n2" Notif.info "saved" 0)
     (NotifTimers.notes (NotifTimers.advance
        (NotifTimers.show (NotifTimers.mkSvc 0 [] [(5000%Z, "n1")]) "n2" Notif.info "saved" 0)
        1000000)).
Proof.
  assert (H1 : (0 <= 0)%Z) by lia.
  assert (H2 : Forall (fun p => snd p <> "n2") [(5000%Z, "n1")])
    by (repeat constructor; discriminate).
  split; [exact H1|]. split; [exact H2|].
  exact (nonpositive_duration_persists (NotifTimers.mkSvc 0 [] [(5000%Z, "n1")])
           "n2" Notif.info "saved" 0 1000000 H1 H2).
Defined.

(** X: removing the id of the notification just shown gives back the
    queue as it was, when no earlier notification carries that id. *)
Theorem remove_after_show (q : Notif.queue) (nid : string) (t : Notif.kind)
    (msg : string) (dur : Z)
    (Hfresh : Forall (fun n => Notif.id n <> nid) q) :
  Notif.remove (Notif.show q nid t msg dur) nid = q.
Proof.
  unfold Notif.show. rewrite <- (remove_absent q nid Hfresh) at 2.
  unfold Notif.remove. rewrite filter_app. simpl.
  rewrite String.eqb_refl. simpl. apply app_nil_r.
Qed.

Lemma remove_after_show_witness :
  let q := [Notif.mkNotification "n1" Notif.success "Resume generated" 5000] in
  Forall (fun n => Notif.id n <> "n2") q /\
  Notif.remove (Notif.show q "n2" Notif.error "Server error" 7000) "n2" = q.
Proof.
  intros q.
  assert (H : Forall (fun n => Notif.id n <> "n2") q) by (repeat constructor; discriminate).
  split; [exact H | exact (remove_after_show q "n2" Notif.error "Server error" 7000 H)].
Defined.

(** ** ImageGenerationComponent: request and history *)








(** ** ApiService calls through the interceptor *)

(** X: when the first backend attempt succeeds before the call's timeout,
    the caller gets its body after a single subscription and no
    notification is queued. *)
Theorem api_call_first_success (fuel : nat) (q : Notif.queue) (nid : string)
    (src : Pipeline.Backend) (c : Api.Call) (b : string)
    (Hend : Pipeline.a_end (src 0%nat) = Pipeline.Succeeded b)
    (Hfast : (Pipeline.a_duration (src 0%nat) < Api.timeout_of c)%Z) :
  Pipeline.api_call (S fuel) q nid src c = Pipeline.mkOutcome (Pipeline.Ok b) [0%Z] q.
Proof.
  unfold Pipeline.api_call. cbn [Pipeline.retry_run]. rewrite Hend.
  destruct (Z.ltb_spec (0 + Pipeline.a_duration (src 0%nat)) (Api.timeout_of c)); [reflexivity | lia].
Qed.

Definition quick_backend : Pipeline.Backend :=
  fun _ => Pipeline.mkAttempt 1 50 (Pipeline.Succeeded "{}").

Lemma api_call_first_success_witness :
  Pipeline.a_end (quick_backend 0%nat) = Pipeline.Succeeded "{}" /\
  (Pipeline.a_duration (quick_backend 0%nat) < Api.timeout_of (Api.Get "/health" None))%Z /\
  Pipeline.api_call 5 [] "n1" quick_backend (Api.Get "/health" None) =
    Pipeline.mkOutcome (Pipeline.Ok "{}") [0%Z] [].
Proof.
  assert (H1 : Pipeline.a_end (quick_backend 0%nat) = Pipeline.Succeeded "{}") by reflexivity.
  assert (H2 : (Pipeline.a_duration (quick_backend 0%nat) < Api.timeout_of (Api.Get "/health" None))%Z)
    by (vm_compute; reflexivity).
  split; [exact H1|]. split; [exact H2|].
  exact (api_call_first_success 4 [] "n1" quick_backend (Api.Get "/health" None) "{}" H1 H2).
Defined.

Section PipelineBounds.
Import Pipeline.



End PipelineBounds.



(** X: every message ApiService's [handleError] rethrows is non-empty,
    so every error an ApiService call surfaces to its caller carries a
    non-empty message. *)
Theorem api_error_messages_nonempty :
  (forall e, Api.handleError e <> "") /\
  (forall fuel q nid src c m,
     Pipeline.result (Pipeline.api_call fuel q nid src c) = Pipeline.Err m -> m <> "").
Proof.
  assert (Hh : forall e, Api.handleError e <> "").
  { intros [r|m|]; simpl.
    - destruct (err_body r); try (apply js_or_nonempty; discriminate). discriminate.
    - apply js_or_nonempty; discriminate.
    - apply js_or_nonempty; discriminate. }
  split; [exact Hh|].
  intros fuel q nid src c m. unfold Pipeline.api_call.
  destruct (Pipeline.retry_run _ _ _ _ _ _) as [te s [b|e] | tn s];
    repeat match goal with |- context [if ?x then _ else _] => destruct x end;
    cbn -[Api.handleError]; intros Hr; try discriminate; injection Hr as <-;
    first [exact (Hh Api.JsTimeout) | exact (Hh (Api.JsPlain _))].
Qed.
